(** * PaymentRequestPlus: a shallow embedding of src/qt/paymentrequestplus.cpp

    The C++ class wraps two protocol-buffer messages (the signed envelope
    [paymentRequest] and the decoded [details]) and offers [parse],
    [getMerchant] and [getPayTo].  The methods are embedded as programs of a
    small monad that threads the object, the caller's [merchant] out-parameter
    and a chronological log of every library call and every message written
    with qWarning / qDebug.  Early [return] and the local exception
    [SSLVerifyError] are constructors of the monad's result.

    Protocol buffers, Qt and OpenSSL are libraries outside the repository:
    their functions are fields of the record [Env], so every theorem holds
    whatever those libraries answer.  Release of native resources
    (X509_free, X509_STORE_CTX_free, delete[]) has no observable value in
    this embedding and is left out. *)

From Stdlib Require Import String Ascii ZArith List Bool Lia.
Import ListNotations.

Open Scope string_scope.
Open Scope list_scope.
Open Scope Z_scope.

(** ** Messages *)

(** Modelled from the spec: the generated protocol-buffer class
    payments::PaymentRequest (paymentrequest.proto is not under src/).  The
    fields are those of the spec's SignedEnvelope; a field that was never set
    is [None], as protocol buffers keep presence for every field. *)
Record PaymentRequest : Type := mkPaymentRequest {
  has_payment_details_version : option Z;
  has_pki_type : option string;
  has_pki_data : option string;
  has_serialized_payment_details : option string;
  has_signature : option string
}.

Definition from_opt {A : Type} (d : A) (o : option A) : A :=
  match o with Some a => a | None => d end.

(** Accessors return the schema's default for an absent field. *)
Definition payment_details_version (r : PaymentRequest) : Z :=
  from_opt 1 (has_payment_details_version r).
Definition pki_type (r : PaymentRequest) : string :=
  from_opt "none" (has_pki_type r).
Definition pki_data (r : PaymentRequest) : string :=
  from_opt EmptyString (has_pki_data r).
Definition serialized_payment_details (r : PaymentRequest) : string :=
  from_opt EmptyString (has_serialized_payment_details r).
Definition signature (r : PaymentRequest) : string :=
  from_opt EmptyString (has_signature r).

(** [Clear()]: every field absent; also the state of a freshly constructed
    message. *)
Definition Clear : PaymentRequest :=
  mkPaymentRequest None None None None None.

(** [set_signature(s)] *)
Definition set_signature (r : PaymentRequest) (s : string) : PaymentRequest :=
  mkPaymentRequest (has_payment_details_version r) (has_pki_type r)
    (has_pki_data r) (has_serialized_payment_details r) (Some s).

(** Modelled from the spec: [IsInitialized()] of the generated class holds
    when every required field is present; the envelope has one, the
    serialized details, without which there is nothing to decode. *)
Definition PaymentRequest_IsInitialized (r : PaymentRequest) : bool :=
  match has_serialized_payment_details r with Some _ => true | None => false end.

(** Modelled from the spec: payments::Output and payments::PaymentDetails,
    reduced to what the class reads, the ordered (script, amount) list.
    [amount] is a uint64. *)
Record Output : Type := mkOutput {
  script : string;
  amount : Z
}.

Record PaymentDetails : Type := mkPaymentDetails {
  outputs : list Output
}.

Definition PaymentDetails_empty : PaymentDetails := mkPaymentDetails [].

(** The members of PaymentRequestPlus. *)
Record PaymentRequestPlus : Type := mkPaymentRequestPlus {
  paymentRequest : PaymentRequest;
  details : PaymentDetails
}.

(** A default-constructed object. *)
Definition fresh : PaymentRequestPlus :=
  mkPaymentRequestPlus Clear PaymentDetails_empty.

(** ** Observable events *)

(** Digest algorithms selected by [pki_type]. *)
Inductive EVP_MD : Type := EVP_sha256 | EVP_sha1.

(** One item streamed into a QDebug. *)
Inductive qitem : Type :=
| q_text (s : string)
| q_uint (n : Z)
| q_cert (der : string).

Inductive event : Type :=
| qWarning (items : list qitem)
| qDebug (items : list qitem)
| PaymentRequest_ParseFromArray_ev (data : string)
| PaymentDetails_ParseFromString_ev (data : string)
| X509Certificates_ParseFromString_ev (data : string)
| QSslCertificate_ev (der : string)
| d2i_X509_ev (der : string)
| X509_STORE_CTX_new_ev
| X509_STORE_CTX_init_ev
| X509_verify_cert_ev
| SerializeToString_ev (r : PaymentRequest)
| EVP_MD_CTX_create_ev
| EVP_VerifyInit_ex_ev (md : EVP_MD)
| EVP_VerifyUpdate_ev (data : string)
| EVP_VerifyFinal_ev (sig : string)
| X509_NAME_get_text_by_NID_ev.

(** ** The monad *)

Record machine : Type := mkMachine {
  self : PaymentRequestPlus;
  merchant : string;
  log : list event
}.

Inductive result (A : Type) : Type :=
| Normal (a : A)
| Return (b : bool)
| Throw (what : string).
Arguments Normal {A} a.
Arguments Return {A} b.
Arguments Throw {A} what.

Definition M (A : Type) : Type := machine -> result A * machine.

Definition ret {A : Type} (a : A) : M A := fun m => (Normal a, m).

Definition bind {A B : Type} (c : M A) (k : A -> M B) : M B :=
  fun m =>
    match c m with
    | (Normal a, m') => k a m'
    | (Return b, m') => (Return b, m')
    | (Throw w, m') => (Throw w, m')
    end.

Declare Scope prog_scope.
Delimit Scope prog_scope with prog.
Notation "x <- c ;; k" := (bind c (fun x => k))
  (at level 61, c at next level, right associativity) : prog_scope.
Notation "' pat <- c ;; k" := (bind c (fun x => match x with pat => k end))
  (at level 61, pat pattern, c at next level, right associativity) : prog_scope.
Notation "c ;; k" := (bind c (fun _ => k))
  (at level 61, right associativity) : prog_scope.
Open Scope prog_scope.

(** [return b;] *)
Definition return_ {A : Type} (b : bool) : M A := fun m => (Return b, m).

(** [throw SSLVerifyError(what);] *)
Definition throw {A : Type} (what : string) : M A := fun m => (Throw what, m).

(** [try { body } catch (const SSLVerifyError& err) { handler }] *)
Definition try_catch {A : Type} (body : M A) (handler : string -> M A) : M A :=
  fun m =>
    match body m with
    | (Throw what, m') => handler what m'
    | other => other
    end.

Definition emit (e : event) : M unit :=
  fun m => (Normal tt, mkMachine (self m) (merchant m) (log m ++ [e])).

Definition get_self : M PaymentRequestPlus := fun m => (Normal (self m), m).

Definition put_self (o : PaymentRequestPlus) : M unit :=
  fun m => (Normal tt, mkMachine o (merchant m) (log m)).

Definition set_merchant (s : string) : M unit :=
  fun m => (Normal tt, mkMachine (self m) s (log m)).

(** A method call: the value returned, or [None] when an exception leaves
    the method. *)
Definition call (body : M bool) (m : machine) : option bool * machine :=
  match body m with
  | (Normal b, m') => (Some b, m')
  | (Return b, m') => (Some b, m')
  | (Throw _, m') => (None, m')
  end.

(** ** C strings *)

(** What a [const char*] designates: the bytes before the first NUL. *)
Fixpoint c_str (bytes : string) : string :=
  match bytes with
  | EmptyString => EmptyString
  | String c rest =>
      if Ascii.eqb c Ascii.zero then EmptyString else String c (c_str rest)
  end.

(** ** The libraries the class calls *)

Section Model.

(** Native handles of OpenSSL. *)
Variables X509 EVP_PKEY X509_STORE : Type.

(** OpenSSL's code for a self-signed leaf that is not in the trust store. *)
Definition X509_V_ERR_DEPTH_ZERO_SELF_SIGNED_CERT : Z := 18.

(** Modelled from the spec: the constant DEFAULT_SELFSIGNED_ROOTCERTS is
    declared in a header that is not under src/; the spec gives the policy
    flag the default false. *)
Definition DEFAULT_SELFSIGNED_ROOTCERTS : bool := false.

Record Env : Type := mkEnv {
  (* protocol buffers: the success flag and the message left in the object *)
  PaymentRequest_ParseFromArray : string -> bool * PaymentRequest;
  PaymentDetails_ParseFromString : string -> bool * PaymentDetails;
  X509Certificates_ParseFromString : string -> bool * list string;
  PaymentRequest_SerializeToString : PaymentRequest -> bool * string;
  (* Qt: times are milliseconds since the epoch *)
  QT_VERSION : Z;
  currentDateTime : Z;
  effectiveDate : string -> Z;
  expiryDate : string -> Z;
  isBlacklisted : string -> bool;
  (* QString::operator=(const char* ), on the bytes of the C string: the
     text Qt decodes them to *)
  QString_from_chars : string -> string;
  (* util.h: GetBoolArg(name, default) reads the process configuration *)
  GetBoolArg : string -> bool -> bool;
  (* OpenSSL; int results are kept as integers *)
  d2i_X509 : string -> option X509;
  X509_STORE_CTX_new : bool;
  X509_STORE_CTX_init : X509_STORE -> X509 -> list X509 -> Z * Z;
  X509_verify_cert : X509_STORE -> X509 -> list X509 -> Z * Z;
  X509_verify_cert_error_string : Z -> string;
  EVP_MD_CTX_create : bool;
  X509_get_pubkey : X509 -> EVP_PKEY;
  EVP_VerifyInit_ex : EVP_MD -> Z;
  EVP_VerifyUpdate : EVP_MD -> string -> Z;
  EVP_VerifyFinal : EVP_MD -> string -> string -> EVP_PKEY -> Z;
  X509_NAME_get_text_by_NID_len : X509 -> Z;
  X509_NAME_get_text_by_NID : X509 -> Z -> Z * string
}.

Variable env : Env.

(** ** parse *)

Definition parse (data : string) : M bool :=
  this <- get_self ;;
  emit (PaymentRequest_ParseFromArray_ev data) ;;
  let '(parseOK, request) := PaymentRequest_ParseFromArray env data in
  put_self (mkPaymentRequestPlus request (details this)) ;;
  (if negb parseOK then
     emit (qWarning [q_text "PaymentRequestPlus::parse: Error parsing payment request"]) ;;
     return_ false
   else ret tt) ;;
  (if 1 <? payment_details_version request then
     emit (qWarning [q_text "PaymentRequestPlus::parse: Received up-version payment details, version=";
                     q_uint (payment_details_version request)]) ;;
     return_ false
   else ret tt) ;;
  emit (PaymentDetails_ParseFromString_ev (serialized_payment_details request)) ;;
  let '(parseOK, parsed) :=
    PaymentDetails_ParseFromString env (serialized_payment_details request) in
  put_self (mkPaymentRequestPlus request parsed) ;;
  (if negb parseOK then
     emit (qWarning [q_text "PaymentRequestPlus::parse: Error parsing payment details"]) ;;
     put_self (mkPaymentRequestPlus Clear parsed) ;;
     return_ false
   else ret tt) ;;
  return_ true.

(** ** SerializeToString, IsInitialized *)

Definition SerializeToString (this : PaymentRequestPlus) : bool * string :=
  PaymentRequest_SerializeToString env (paymentRequest this).

Definition IsInitialized (this : PaymentRequestPlus) : bool :=
  PaymentRequest_IsInitialized (paymentRequest this).

(** ** getMerchant *)

(** The loop over the decoded bundle: [certificates] are the DER blobs still
    to be visited, [certs] the handles pushed so far. *)
Fixpoint load_certs (certificates : list string) (certs : list X509)
  : M (list X509) :=
  match certificates with
  | [] => ret certs
  | certData :: rest =>
      emit (QSslCertificate_ev certData) ;;
      (if (currentDateTime env <? effectiveDate env certData)
          || (expiryDate env certData <? currentDateTime env) then
         emit (qWarning [q_text "PaymentRequestPlus::getMerchant: Payment request: certificate expired or not yet active: ";
                         q_cert certData]) ;;
         return_ false
       else ret tt) ;;
      (if (0x050000 <=? QT_VERSION env) && isBlacklisted env certData then
         emit (qWarning [q_text "PaymentRequestPlus::getMerchant: Payment request: certificate blacklisted: ";
                         q_cert certData]) ;;
         return_ false
       else ret tt) ;;
      emit (d2i_X509_ev certData) ;;
      match d2i_X509 env certData with
      | Some cert => load_certs rest (certs ++ [cert])
      | None => load_certs rest certs
      end
  end.

(** The digest named by [pki_type], or the early return. *)
Definition select_digest (request : PaymentRequest) : M EVP_MD :=
  if (pki_type request =? "x509+sha256")%string then ret EVP_sha256
  else if (pki_type request =? "x509+sha1")%string then ret EVP_sha1
  else if (pki_type request =? "none")%string then
    emit (qWarning [q_text "PaymentRequestPlus::getMerchant: Payment request: pki_type == none"]) ;;
    return_ false
  else
    emit (qWarning [q_text "PaymentRequestPlus::getMerchant: Payment request: unknown pki_type ";
                    q_text (pki_type request)]) ;;
    return_ false.

(** The body of the [try] block. *)
Definition verify (certStore : X509_STORE) (request : PaymentRequest)
    (digestAlgorithm : EVP_MD) (signing_cert : X509) (chain : list X509)
  : M unit :=
  emit X509_STORE_CTX_init_ev ;;
  let '(inited, init_error) :=
    X509_STORE_CTX_init env certStore signing_cert chain in
  (if inited =? 0 then throw (X509_verify_cert_error_string env init_error)
   else ret tt) ;;
  emit X509_verify_cert_ev ;;
  let '(result, error) := X509_verify_cert env certStore signing_cert chain in
  (if negb (result =? 1) then
     if negb ((error =? X509_V_ERR_DEPTH_ZERO_SELF_SIGNED_CERT)
              && GetBoolArg env "-allowselfsignedrootcertificates"
                   DEFAULT_SELFSIGNED_ROOTCERTS) then
       throw (X509_verify_cert_error_string env error)
     else
       emit (qDebug [q_text "PaymentRequestPlus::getMerchant: Allowing self signed root certificate, because -allowselfsignedrootcertificates is true."])
   else ret tt) ;;
  let rcopy := set_signature request EmptyString in
  emit (SerializeToString_ev rcopy) ;;
  let data_to_verify := snd (PaymentRequest_SerializeToString env rcopy) in
  emit EVP_MD_CTX_create_ev ;;
  (if negb (EVP_MD_CTX_create env) then throw "Failed to create EVP_MD_CTX"
   else ret tt) ;;
  let pubkey := X509_get_pubkey env signing_cert in
  emit (EVP_VerifyInit_ex_ev digestAlgorithm) ;;
  (if EVP_VerifyInit_ex env digestAlgorithm =? 0 then
     throw "Bad signature, invalid payment request."
   else ret tt) ;;
  emit (EVP_VerifyUpdate_ev data_to_verify) ;;
  (if EVP_VerifyUpdate env digestAlgorithm data_to_verify =? 0 then
     throw "Bad signature, invalid payment request."
   else ret tt) ;;
  emit (EVP_VerifyFinal_ev (signature request)) ;;
  (if EVP_VerifyFinal env digestAlgorithm data_to_verify (signature request) pubkey =? 0 then
     throw "Bad signature, invalid payment request."
   else ret tt) ;;
  emit X509_NAME_get_text_by_NID_ev ;;
  let textlen := X509_NAME_get_text_by_NID_len env signing_cert in
  emit X509_NAME_get_text_by_NID_ev ;;
  let '(written, website) := X509_NAME_get_text_by_NID env signing_cert (textlen + 1) in
  if (written =? textlen) && (0 <? textlen) then
    set_merchant (QString_from_chars env (c_str website))
  else throw "Bad certificate, missing common name.".

Definition getMerchant (certStore : X509_STORE) : M bool :=
  set_merchant EmptyString ;;
  this <- get_self ;;
  (if negb (IsInitialized this) then return_ false else ret tt) ;;
  let request := paymentRequest this in
  digestAlgorithm <- select_digest request ;;
  emit (X509Certificates_ParseFromString_ev (pki_data request)) ;;
  let '(parsed, certChain) := X509Certificates_ParseFromString env (pki_data request) in
  (if negb parsed then
     emit (qWarning [q_text "PaymentRequestPlus::getMerchant: Payment request: error parsing pki_data"]) ;;
     return_ false
   else ret tt) ;;
  certs <- load_certs certChain [] ;;
  match certs with
  | [] =>
      emit (qWarning [q_text "PaymentRequestPlus::getMerchant: Payment request: empty certificate chain"]) ;;
      return_ false
  | signing_cert :: others =>
      let chain := rev others in
      emit X509_STORE_CTX_new_ev ;;
      (if negb (X509_STORE_CTX_new env) then
         emit (qWarning [q_text "PaymentRequestPlus::getMerchant: Payment request: error creating X509_STORE_CTX"]) ;;
         return_ false
       else ret tt) ;;
      fResult <- try_catch
        (verify certStore request digestAlgorithm signing_cert chain ;; ret true)
        (fun err =>
           emit (qWarning [q_text "PaymentRequestPlus::getMerchant: SSL error: ";
                           q_text err]) ;;
           ret false) ;;
      return_ fResult
  end.

(** ** getPayTo *)

(** The uint64 amount is stored into a CAmount (int64_t). *)
Definition to_CAmount (a : Z) : Z :=
  let w := a mod 2 ^ 64 in
  if w <? 2 ^ 63 then w else w - 2 ^ 64.

Definition getPayTo (this : PaymentRequestPlus) : list (string * Z) :=
  map (fun o => (script o, to_CAmount (amount o))) (outputs (details this)).

(** ** Vocabulary of the statements *)

(** The two tests the loop makes on a certificate before it decodes it. *)
Definition outside_validity (der : string) : bool :=
  (currentDateTime env <? effectiveDate env der)
  || (expiryDate env der <? currentDateTime env).

Definition distrusted (der : string) : bool :=
  (0x050000 <=? QT_VERSION env) && isBlacklisted env der.

Definition acceptable (der : string) : bool :=
  negb (outside_validity der) && negb (distrusted der).

(** The handles of the certificates of a bundle that d2i_X509 decodes. *)
Definition usable (certChain : list string) : list X509 :=
  flat_map (fun der => match d2i_X509 env der with
                       | Some cert => [cert]
                       | None => []
                       end) certChain.

(** What the loop logs on a bundle, and how it ends. *)
Fixpoint loading_events (certChain : list string) : list event :=
  match certChain with
  | [] => []
  | der :: rest =>
      QSslCertificate_ev der ::
      (if outside_validity der then
         [qWarning [q_text "PaymentRequestPlus::getMerchant: Payment request: certificate expired or not yet active: ";
                    q_cert der]]
       else if distrusted der then
         [qWarning [q_text "PaymentRequestPlus::getMerchant: Payment request: certificate blacklisted: ";
                    q_cert der]]
       else d2i_X509_ev der :: loading_events rest)
  end.

Definition loading_result (certChain : list string) (certs : list X509)
  : result (list X509) :=
  if forallb acceptable certChain then Normal (certs ++ usable certChain)
  else Return false.

(** The signing schemes [getMerchant] recognizes. *)
Definition recognized (t : string) : Prop :=
  t = "x509+sha256" \/ t = "x509+sha1".

(** The canonical bytes: the envelope serialized with an empty signature. *)
Definition canonical_bytes (request : PaymentRequest) : string :=
  snd (PaymentRequest_SerializeToString env (set_signature request EmptyString)).

(** The policy flag read by [getMerchant]. *)
Definition allow_self_signed_root : bool :=
  GetBoolArg env "-allowselfsignedrootcertificates" DEFAULT_SELFSIGNED_ROOTCERTS.

End Model.

Arguments Env : clear implicits.
Arguments PaymentRequest_ParseFromArray {X509 EVP_PKEY X509_STORE} e.
Arguments PaymentDetails_ParseFromString {X509 EVP_PKEY X509_STORE} e.
Arguments X509Certificates_ParseFromString {X509 EVP_PKEY X509_STORE} e.
Arguments PaymentRequest_SerializeToString {X509 EVP_PKEY X509_STORE} e.
Arguments QT_VERSION {X509 EVP_PKEY X509_STORE} e.
Arguments currentDateTime {X509 EVP_PKEY X509_STORE} e.
Arguments effectiveDate {X509 EVP_PKEY X509_STORE} e.
Arguments expiryDate {X509 EVP_PKEY X509_STORE} e.
Arguments isBlacklisted {X509 EVP_PKEY X509_STORE} e.
Arguments QString_from_chars {X509 EVP_PKEY X509_STORE} e.
Arguments GetBoolArg {X509 EVP_PKEY X509_STORE} e.
Arguments d2i_X509 {X509 EVP_PKEY X509_STORE} e.
Arguments X509_STORE_CTX_new {X509 EVP_PKEY X509_STORE} e.
Arguments X509_STORE_CTX_init {X509 EVP_PKEY X509_STORE} e.
Arguments X509_verify_cert {X509 EVP_PKEY X509_STORE} e.
Arguments X509_verify_cert_error_string {X509 EVP_PKEY X509_STORE} e.
Arguments EVP_MD_CTX_create {X509 EVP_PKEY X509_STORE} e.
Arguments X509_get_pubkey {X509 EVP_PKEY X509_STORE} e.
Arguments EVP_VerifyInit_ex {X509 EVP_PKEY X509_STORE} e.
Arguments EVP_VerifyUpdate {X509 EVP_PKEY X509_STORE} e.
Arguments EVP_VerifyFinal {X509 EVP_PKEY X509_STORE} e.
Arguments X509_NAME_get_text_by_NID_len {X509 EVP_PKEY X509_STORE} e.
Arguments X509_NAME_get_text_by_NID {X509 EVP_PKEY X509_STORE} e.
Arguments parse {X509 EVP_PKEY X509_STORE} env data.
Arguments SerializeToString {X509 EVP_PKEY X509_STORE} env this.
Arguments load_certs {X509 EVP_PKEY X509_STORE} env certificates certs.
Arguments verify {X509 EVP_PKEY X509_STORE} env certStore request digestAlgorithm signing_cert chain.
Arguments getMerchant {X509 EVP_PKEY X509_STORE} env certStore.
Arguments outside_validity {X509 EVP_PKEY X509_STORE} env der.
Arguments distrusted {X509 EVP_PKEY X509_STORE} env der.
Arguments acceptable {X509 EVP_PKEY X509_STORE} env der.
Arguments usable {X509 EVP_PKEY X509_STORE} env certChain.
Arguments loading_events {X509 EVP_PKEY X509_STORE} env certChain.
Arguments loading_result {X509 EVP_PKEY X509_STORE} env certChain certs.
Arguments canonical_bytes {X509 EVP_PKEY X509_STORE} env request.
Arguments allow_self_signed_root {X509 EVP_PKEY X509_STORE} env.

(** The reading of "no trust-bearing value is exposed" that the code is
    measured against: after a failed validation the merchant is empty and
    getPayTo hands out no output. *)
Definition failure_exposes_nothing {X509 EVP_PKEY X509_STORE : Type}
    (env : Env X509 EVP_PKEY X509_STORE) (store : X509_STORE) (m : machine)
  : Prop :=
  fst (call (getMerchant env store) m) = Some false ->
  merchant (snd (call (getMerchant env store) m)) = EmptyString /\
  getPayTo (self (snd (call (getMerchant env store) m))) = [].

(** The reading of "no partial object is exposed to later accessors" that
    the code is measured against: after parse failed on the details the
    object is not initialized and getPayTo hands out no output. *)
Definition details_failure_exposes_nothing {X509 EVP_PKEY X509_STORE : Type}
    (env : Env X509 EVP_PKEY X509_STORE) (data : string) (m : machine)
  : Prop :=
  let request := snd (PaymentRequest_ParseFromArray env data) in
  fst (PaymentRequest_ParseFromArray env data) = true ->
  payment_details_version request <= 1 ->
  fst (PaymentDetails_ParseFromString env (serialized_payment_details request))
  = false ->
  fst (call (parse env data) m) = Some false /\
  IsInitialized (self (snd (call (parse env data) m))) = false /\
  getPayTo (self (snd (call (parse env data) m))) = [].

(** The events a call appended to the log. *)
Definition new_events (before after : machine) : list event :=
  skipn (length (log before)) (log after).

Definition is_signature_check (e : event) : bool :=
  match e with
  | EVP_VerifyInit_ex_ev _ | EVP_VerifyUpdate_ev _ | EVP_VerifyFinal_ev _ => true
  | _ => false
  end.

Definition is_certificate_decoding (e : event) : bool :=
  match e with
  | X509Certificates_ParseFromString_ev _ | QSslCertificate_ev _ | d2i_X509_ev _ => true
  | _ => false
  end.

Definition is_details_parsing (e : event) : bool :=
  match e with
  | PaymentDetails_ParseFromString_ev _ => true
  | _ => false
  end.

Definition is_qWarning (e : event) : bool :=
  match e with
  | qWarning _ => true
  | _ => false
  end.

(** Everything [getMerchant] does once the certificates are loaded. *)
Definition is_after_loading (e : event) : bool :=
  match e with
  | X509_STORE_CTX_new_ev | X509_STORE_CTX_init_ev | X509_verify_cert_ev
  | SerializeToString_ev _ | EVP_MD_CTX_create_ev | EVP_VerifyInit_ex_ev _
  | EVP_VerifyUpdate_ev _ | EVP_VerifyFinal_ev _
  | X509_NAME_get_text_by_NID_ev => true
  | _ => false
  end.

(** ** Test doubles

    A small self-contained instance of the libraries, used to run the
    methods on concrete inputs.  A certificate is the text [cert:<name>];
    an envelope is [version|pki_type|pki_data|details|signature]; a bundle
    and a details payload are lists separated by semicolons. *)

Fixpoint demo_split (sep : ascii) (s cur : string) : list string :=
  match s with
  | EmptyString => [cur]
  | String c rest =>
      if Ascii.eqb c sep then cur :: demo_split sep rest EmptyString
      else demo_split sep rest (cur ++ String c EmptyString)%string
  end.

Definition demo_list (s : string) : list string :=
  if (s =? EmptyString)%string then [] else demo_split ";"%char s EmptyString.

Definition demo_version (s : string) : option Z :=
  if (s =? "0")%string then Some 0
  else if (s =? "1")%string then Some 1
  else if (s =? "2")%string then Some 2
  else None.

Definition demo_parse_request (data : string) : bool * PaymentRequest :=
  match demo_split "|"%char data EmptyString with
  | [v; t; d; p; s] =>
      match demo_version v with
      | Some n => (true, mkPaymentRequest (Some n) (Some t) (Some d) (Some p) (Some s))
      | None => (false, mkPaymentRequest None (Some t) (Some d) (Some p) (Some s))
      end
  | _ => (false, Clear)
  end.

(** Outputs are decoded one by one; the item [?] is malformed and stops the
    decoder, which leaves what it had decoded so far. *)
Fixpoint demo_outputs (items : list string) (acc : list Output)
  : bool * PaymentDetails :=
  match items with
  | [] => (true, mkPaymentDetails acc)
  | item :: rest =>
      if (item =? "?")%string then (false, mkPaymentDetails acc)
      else demo_outputs rest (acc ++ [mkOutput item (Z.of_nat (String.length item))])
  end.

Definition demo_parse_details (data : string) : bool * PaymentDetails :=
  demo_outputs (demo_list data) [].

Definition demo_serialize (r : PaymentRequest) : bool * string :=
  (true,
   (pki_type r ++ "|" ++ pki_data r ++ "|" ++ serialized_payment_details r
    ++ "|" ++ signature r)%string).

Definition demo_d2i (der : string) : option string :=
  if String.prefix "cert:" der then Some der else None.

Definition demo_verify_cert (store : list string) (leaf : string)
    (chain : list string) : Z * Z :=
  if existsb (String.eqb leaf) store then (1, 0)
  else if (leaf =? "cert:selfsigned")%string then (0, 18)
  else (0, 20).

Definition demo_error_string (e : Z) : string :=
  if e =? 18 then "self signed certificate"
  else "unable to get local issuer certificate".

Definition demo_common_name (cert : string) : string :=
  String.substring 5 (String.length cert - 5) cert.

Definition demo_GetBoolArg (flag : option bool) (name : string) (default : bool)
  : bool :=
  match flag with
  | Some b => if (name =? "-allowselfsignedrootcertificates")%string then b else default
  | None => default
  end.

(** [flag] is the configured value of -allowselfsignedrootcertificates. *)
Definition demo_env (flag : option bool) : Env string string (list string) :=
  {| PaymentRequest_ParseFromArray := demo_parse_request;
     PaymentDetails_ParseFromString := demo_parse_details;
     X509Certificates_ParseFromString := fun data => (true, demo_list data);
     PaymentRequest_SerializeToString := demo_serialize;
     QT_VERSION := 0x050000;
     currentDateTime := 100;
     effectiveDate := fun der => if (der =? "cert:future")%string then 2000 else 0;
     expiryDate := fun der => if (der =? "cert:expired")%string then 10 else 1000;
     isBlacklisted := fun der => (der =? "cert:revoked")%string;
     QString_from_chars := fun chars => chars;
     GetBoolArg := demo_GetBoolArg flag;
     d2i_X509 := demo_d2i;
     X509_STORE_CTX_new := true;
     X509_STORE_CTX_init := fun _ _ _ => (1, 0);
     X509_verify_cert := demo_verify_cert;
     X509_verify_cert_error_string := demo_error_string;
     EVP_MD_CTX_create := true;
     X509_get_pubkey := fun cert => cert;
     EVP_VerifyInit_ex := fun _ => 1;
     EVP_VerifyUpdate := fun _ _ => 1;
     EVP_VerifyFinal := fun _ data sig key =>
       if (sig =? key ++ "/" ++ data)%string then 1 else 0;
     X509_NAME_get_text_by_NID_len := fun cert =>
       Z.of_nat (String.length (demo_common_name cert));
     X509_NAME_get_text_by_NID := fun cert _ =>
       (Z.of_nat (String.length (demo_common_name cert)), demo_common_name cert)
  |}.

Definition demo_store : list string := ["cert:shop.example"].

Definition demo_machine (this : PaymentRequestPlus) : machine :=
  mkMachine this "stale" [].

(** An object as [parse] leaves it on a well-formed envelope. *)
Definition demo_object (t d p s : string) : PaymentRequestPlus :=
  mkPaymentRequestPlus (mkPaymentRequest (Some 1) (Some t) (Some d) (Some p) (Some s))
    (snd (demo_parse_details p)).

(** The object after [parse] accepted an envelope with pki_type none and
    two outputs. *)
Definition demo_parsed : machine :=
  snd (call (parse (demo_env None) "1|none||coffee;tea|") (demo_machine fresh)).

(** A request signed by shop.example, whose certificate is in the store;
    the bundle also carries a blob that does not decode. *)
Definition demo_signed : machine :=
  demo_machine
    (demo_object "x509+sha256" "cert:shop.example;junk;cert:ca" "coffee"
       "cert:shop.example/x509+sha256|cert:shop.example;junk;cert:ca|coffee|").

(** A request signed with a self-signed certificate that is not in the
    store. *)
Definition demo_selfsigned : machine :=
  demo_machine
    (demo_object "x509+sha256" "cert:selfsigned" "coffee"
       "cert:selfsigned/x509+sha256|cert:selfsigned|coffee|").

(** A bundle whose second certificate has expired. *)
Definition demo_expired : machine :=
  demo_machine
    (demo_object "x509+sha256" "cert:shop.example;cert:expired" "coffee" "sig").

(** A bundle of two blobs, neither of which decodes. *)
Definition demo_junk : machine :=
  demo_machine (demo_object "x509+sha1" "junk;rubbish" "coffee" "sig").

(** A bundle whose second certificate is blacklisted. *)
Definition demo_revoked : machine :=
  demo_machine
    (demo_object "x509+sha256" "cert:shop.example;cert:revoked" "coffee" "sig").

(** A request of shop.example whose signature does not match. *)
Definition demo_forged : machine :=
  demo_machine (demo_object "x509+sha256" "cert:shop.example" "coffee" "forged").

(** A correctly signed request whose certificate, trusted by the store
    [demo_store_nameless], has an empty common name. *)
Definition demo_nameless : machine :=
  demo_machine
    (demo_object "x509+sha256" "cert:" "coffee" "cert:/x509+sha256|cert:|coffee|").

Definition demo_store_nameless : list string := ["cert:"].

(** A certificate whose common name carries a NUL, and a request it signs
    correctly, trusted by the store [demo_store_nul]. *)
Definition demo_cert_nul : string :=
  ("cert:shop.example" ++ String Ascii.zero "evil.example")%string.

Definition demo_nul : machine :=
  demo_machine
    (demo_object "x509+sha256" demo_cert_nul "coffee"
       (demo_cert_nul ++ "/x509+sha256|" ++ demo_cert_nul ++ "|coffee|")%string).

Definition demo_store_nul : list string := [demo_cert_nul].

(** The object after a good parse followed by a parse whose details are
    malformed. *)
Definition demo_reparsed : machine :=
  snd (call (parse (demo_env None) "1|none||evil;?|") demo_parsed).

(** The envelope of [demo_signed] in an object with other details, another
    incoming merchant and an earlier log. *)
Definition demo_signed_elsewhere : machine :=
  mkMachine
    (mkPaymentRequestPlus (paymentRequest (self demo_signed)) PaymentDetails_empty)
    "elsewhere" [qDebug []].

(** * Properties *)

Section Properties.

Context {X509 EVP_PKEY X509_STORE : Type}.
Variable env : Env X509 EVP_PKEY X509_STORE.

(** ** The log only grows *)

Lemma new_events_app (m m' : machine) (l : list event) :
  log m' = log m ++ l -> new_events m m' = l.
Proof.
  intros H. unfold new_events. rewrite H.
  rewrite skipn_app, skipn_all, Nat.sub_diag. reflexivity.
Qed.

(** ** The loop over the bundle *)

Lemma load_certs_run (certChain : list string) :
  forall (certs : list X509) (m : machine),
    load_certs env certChain certs m =
    (loading_result env certChain certs,
     mkMachine (self m) (merchant m) (log m ++ loading_events env certChain)).
Proof.
  induction certChain as [|der rest IH]; intros certs m.
  - destruct m as [o s l]. cbn. rewrite !app_nil_r. reflexivity.
  - cbn [load_certs loading_events].
    unfold loading_result. cbn [forallb]. unfold acceptable at 1.
    fold (outside_validity env der). fold (distrusted env der).
    destruct (outside_validity env der) eqn:Hout.
    + cbn. rewrite <- app_assoc. reflexivity.
    + destruct (distrusted env der) eqn:Hdis.
      * cbn. rewrite <- app_assoc. reflexivity.
      * cbn.
        unfold usable. cbn [flat_map]. fold (usable env rest).
        destruct (d2i_X509 env der) as [cert|]; rewrite IH; cbn;
          unfold loading_result; rewrite <- !app_assoc; reflexivity.
Qed.

Lemma loading_events_kind (certChain : list string) (e : event) :
  In e (loading_events env certChain) ->
  is_after_loading e = false /\ is_details_parsing e = false.
Proof.
  induction certChain as [|der rest IH]; cbn [loading_events In]; [tauto|].
  intros [<-|H]; [split; reflexivity|].
  destruct (outside_validity env der); [destruct H as [<-|[]]; split; reflexivity|].
  destruct (distrusted env der); [destruct H as [<-|[]]; split; reflexivity|].
  destruct H as [<-|H]; [split; reflexivity|auto].
Qed.

(** ** Symbolic execution *)

Ltac unfold_methods_in H :=
  cbv [call getMerchant select_digest verify parse IsInitialized
       bind ret return_ throw try_catch emit get_self put_self set_merchant] in H;
  cbn [self merchant log paymentRequest details fst snd] in H.

(** The condition the program tests next. *)
Ltac next_test t :=
  match t with
  | (if ?b then _ else _) => next_test b
  | (if ?b then _ else _) => b
  | (match ?x with (_, _) => _ end) => next_test x
  | (match ?x with (_, _) => _ end) => x
  | (match ?x with Normal _ => _ | Return _ => _ | Throw _ => _ end) => next_test x
  | (match ?x with Normal _ => _ | Return _ => _ | Throw _ => _ end) => x
  | (match ?x with Some _ => _ | None => _ end) => next_test x
  | (match ?x with Some _ => _ | None => _ end) => x
  | (match ?x with [] => _ | _ :: _ => _ end) => next_test x
  | (match ?x with [] => _ | _ :: _ => _ end) => x
  | negb ?b => next_test b
  | negb ?b => b
  | ?f _ => next_test f
  end.

(** One step: a test whose outcome is a hypothesis is rewritten, the loop is
    replaced by its summary, anything else is a case split. *)
Ltac step_in H :=
  let t := match type of H with ?lhs = _ => lhs end in
  let s := next_test t in
  lazymatch s with
  | load_certs _ _ _ _ =>
      rewrite load_certs_run in H; unfold loading_result in H
  | _ =>
      lazymatch goal with
      | K : s = _ |- _ => rewrite K in H
      | _ => destruct s eqn:?
      end
  end;
  cbn [self merchant log paymentRequest details fst snd negb app] in H.

Ltac run_in H := unfold_methods_in H; repeat step_in H.

(** Membership of an event in a log made of single events and of the
    events of the loop. *)
Ltac log_member :=
  repeat match goal with
         | H : In _ (_ :: _) |- _ => destruct H as [H|H]
         | H : In _ (_ ++ _) |- _ => apply in_app_or in H; destruct H as [H|H]
         | H : In _ [] |- _ => destruct H
         | H : In ?e (loading_events _ _) |- _ =>
             apply loading_events_kind in H; destruct H as [H _]; discriminate H
         | H : _ = _ :> event |- _ => first [discriminate H | injection H as H]
         end.

Ltac log_has := apply in_cons, in_or_app; right; cbn [In]; auto 20.

(** Every run of [getMerchant] returns, leaves the object as it was, clears
    the merchant unless it succeeds, and feeds the verifier the canonical
    bytes and the stored signature only. *)
Lemma getMerchant_outcome (store : X509_STORE) (m : machine) :
  exists (b : bool) (s : string) (l : list event),
    call (getMerchant env store) m
    = (Some b, mkMachine (self m) s (log m ++ l)) /\
    (b = false -> s = EmptyString) /\
    (forall data, In (EVP_VerifyUpdate_ev data) l ->
                  data = canonical_bytes env (paymentRequest (self m))) /\
    (forall sig, In (EVP_VerifyFinal_ev sig) l ->
                 sig = signature (paymentRequest (self m))) /\
    (b = true ->
     In (EVP_VerifyUpdate_ev (canonical_bytes env (paymentRequest (self m)))) l /\
     In (EVP_VerifyFinal_ev (signature (paymentRequest (self m)))) l).
Proof.
  destruct (call (getMerchant env store) m) as [r m'] eqn:H.
  run_in H; injection H as <- <-; rewrite <- ?app_assoc; cbn [app];
    try (exists false, EmptyString, []; rewrite app_nil_r;
         repeat split; intros; log_member; congruence).
  all: eexists _, _, _; split; [reflexivity|].
  all: unfold canonical_bytes.
  all: repeat split; intros; try discriminate; try log_has; log_member; subst;
         try reflexivity; try congruence.
Qed.

Lemma getMerchant_log (store : X509_STORE) (m : machine) :
  exists l : list event,
    log (snd (call (getMerchant env store) m)) = log m ++ l.
Proof.
  destruct (getMerchant_outcome store m) as (b & s & l & -> & _).
  exists l. reflexivity.
Qed.

(** ** getMerchant on an object without an envelope *)

(** C10. When the stored payment request is not initialized, as on an
    object that no parse has filled, getMerchant returns false with the
    merchant set to the empty string, and the log is unchanged: no library
    is called, so neither pki_type nor any certificate or signature is
    looked at. *)
Theorem getMerchant_uninitialized (store : X509_STORE) (m : machine) :
  IsInitialized (self m) = false ->
  call (getMerchant env store) m
  = (Some false, mkMachine (self m) EmptyString (log m)).
Proof.
  intros Hinit. unfold IsInitialized in Hinit.
  destruct (call (getMerchant env store) m) as [r m'] eqn:H.
  unfold_methods_in H. rewrite Hinit in H. cbn in H. symmetry. exact H.
Qed.

(** ** Failure exposes no merchant name *)

(** C1 (amended). Whenever getMerchant returns false the merchant output is
    the empty string.  The payment outputs are not withheld: getPayTo reads
    the decoded details, which getMerchant leaves as they were. *)
Theorem getMerchant_failure_clears_merchant (store : X509_STORE) (m : machine) :
  fst (call (getMerchant env store) m) = Some false ->
  merchant (snd (call (getMerchant env store) m)) = EmptyString /\
  getPayTo (self (snd (call (getMerchant env store) m))) = getPayTo (self m).
Proof.
  destruct (getMerchant_outcome store m) as (b & s & l & -> & Hs & _).
  cbn [fst snd self merchant]. intros Hb.
  injection Hb as ->. split; [auto|reflexivity].
Qed.

(** ** The signed bytes *)


(** ** The recognized signing schemes *)

Ltac simplify_new_events :=
  match goal with
  | |- context [new_events ?m ?m'] =>
      first [ rewrite (new_events_app m m' [] (eq_sym (app_nil_r _)))
            | erewrite (new_events_app m m')
                by (cbn [log]; rewrite <- ?app_assoc; reflexivity) ]
  end.

(** C4. When pki_type is neither x509+sha256 nor x509+sha1 (the marker none
    included), getMerchant returns false with an empty merchant, and all it
    logs are warnings: the certificate bundle is not parsed and no
    certificate is decoded. *)
Theorem getMerchant_unrecognized_pki_type (store : X509_STORE) (m : machine) :
  ~ recognized (pki_type (paymentRequest (self m))) ->
  let m' := snd (call (getMerchant env store) m) in
  fst (call (getMerchant env store) m) = Some false /\
  merchant m' = EmptyString /\
  forall e, In e (new_events m m') ->
            is_qWarning e = true /\ is_certificate_decoding e = false.
Proof.
  intros Hnot m'. subst m'.
  assert (H256 : (pki_type (paymentRequest (self m)) =? "x509+sha256")%string = false).
  { apply String.eqb_neq. intros E. apply Hnot. left. exact E. }
  assert (H1 : (pki_type (paymentRequest (self m)) =? "x509+sha1")%string = false).
  { apply String.eqb_neq. intros E. apply Hnot. right. exact E. }
  destruct (call (getMerchant env store) m) as [r m'] eqn:H.
  run_in H; injection H as <- <-; cbn [fst snd merchant];
    simplify_new_events; (split; [reflexivity|]); (split; [reflexivity|]);
    intros e He; log_member; subst e; split; reflexivity.
Qed.

(** ** parse *)

(** C5. When the decoded envelope carries a payment_details_version above
    1, parse returns false, the details member keeps its former value and
    the details decoder is not called. *)
Theorem parse_up_version (data : string) (m : machine) :
  1 < payment_details_version (snd (PaymentRequest_ParseFromArray env data)) ->
  let m' := snd (call (parse env data) m) in
  fst (call (parse env data) m) = Some false /\
  details (self m') = details (self m) /\
  forall e, In e (new_events m m') -> is_details_parsing e = false.
Proof.
  intros Hv m'. subst m'.
  destruct (call (parse env data) m) as [r m'] eqn:H.
  destruct (PaymentRequest_ParseFromArray env data) as [ok request] eqn:Hp.
  cbn [snd] in Hv. apply Z.ltb_lt in Hv.
  run_in H; injection H as <- <-; cbn [fst snd self details];
    simplify_new_events; (split; [reflexivity|]); (split; [reflexivity|]);
    intros e He; log_member; subst e; reflexivity.
Qed.

(** C8 (amended). When the envelope decodes, its version is supported and
    the details do not decode, parse returns false and clears the stored
    envelope: the object is not initialized, it serializes as an empty
    message, and a later getMerchant returns false with an empty merchant
    without calling any library.  The details member is not reset: it holds
    what the failed decoder left, and getPayTo returns those outputs. *)
Theorem parse_malformed_details (data : string) (m : machine)
    (request : PaymentRequest) :
  PaymentRequest_ParseFromArray env data = (true, request) ->
  payment_details_version request <= 1 ->
  fst (PaymentDetails_ParseFromString env (serialized_payment_details request))
  = false ->
  let m' := snd (call (parse env data) m) in
  fst (call (parse env data) m) = Some false /\
  self m' = mkPaymentRequestPlus Clear
              (snd (PaymentDetails_ParseFromString env
                      (serialized_payment_details request))) /\
  paymentRequest (self m') = Clear /\
  IsInitialized (self m') = false /\
  SerializeToString env (self m') = PaymentRequest_SerializeToString env Clear /\
  getPayTo (self m')
  = map (fun o => (script o, to_CAmount (amount o)))
      (outputs (snd (PaymentDetails_ParseFromString env
                       (serialized_payment_details request)))) /\
  forall store : X509_STORE,
    call (getMerchant env store) m'
    = (Some false, mkMachine (self m') EmptyString (log m')).
Proof.
  intros Hp Hv Hd m'. subst m'.
  destruct (call (parse env data) m) as [r m'] eqn:H.
  destruct (PaymentDetails_ParseFromString env (serialized_payment_details request))
    as [ok parsed] eqn:Hq.
  cbn [fst] in Hd. subst ok.
  assert (Hv' : (1 <? payment_details_version request) = false)
    by (apply Z.ltb_ge; exact Hv).
  run_in H. injection H as <- <-. cbn [fst snd self paymentRequest].
  cbn [snd].
  repeat (split; [reflexivity|]).
  intros store.
  destruct (call (getMerchant env store) _) as [r' m''] eqn:H.
  unfold_methods_in H. cbn in H. symmetry. exact H.
Qed.

(** ** Facts about the loop's summary *)

Lemma outside_not_acceptable (certChain : list string) (der : string) :
  In der certChain -> outside_validity env der = true ->
  forallb (acceptable env) certChain = false.
Proof.
  intros Hin Hout.
  destruct (forallb (acceptable env) certChain) eqn:Hall; [|reflexivity].
  rewrite forallb_forall in Hall. specialize (Hall der Hin).
  unfold acceptable in Hall. rewrite Hout in Hall. discriminate Hall.
Qed.

Lemma loading_events_d2i (certChain : list string) (der : string) :
  In (d2i_X509_ev der) (loading_events env certChain) ->
  acceptable env der = true.
Proof.
  induction certChain as [|c rest IH]; cbn [loading_events In]; [tauto|].
  intros [E|H]; [discriminate E|].
  unfold acceptable.
  destruct (outside_validity env c) eqn:Hout;
    [destruct H as [E|[]]; discriminate E|].
  destruct (distrusted env c) eqn:Hdis;
    [destruct H as [E|[]]; discriminate E|].
  destruct H as [E|H]; [|exact (IH H)].
  injection E as <-. rewrite Hout, Hdis. reflexivity.
Qed.

Lemma usable_app (pre post : list string) :
  usable env (pre ++ post) = usable env pre ++ usable env post.
Proof. unfold usable. apply flat_map_app. Qed.

Lemma loading_events_app (pre post : list string) :
  loading_events env (pre ++ post)
  = loading_events env pre
    ++ (if forallb (acceptable env) pre then loading_events env post else []).
Proof.
  induction pre as [|c rest IH]; [reflexivity|].
  cbn [app loading_events forallb]. unfold acceptable at 1.
  destruct (outside_validity env c); [reflexivity|].
  destruct (distrusted env c); [reflexivity|].
  cbn [negb andb app]. rewrite IH. reflexivity.
Qed.

(** ** The validity window *)

(** C6. If any certificate of the decoded bundle, at any position, has a
    validity window that does not contain the current time, getMerchant
    returns false with an empty merchant; that certificate is never decoded
    into a native handle and nothing that follows the loading of the
    certificates (path validation, signature check, name extraction) runs. *)
Theorem getMerchant_certificate_outside_validity (store : X509_STORE)
    (m : machine) (der : string) :
  In der (snd (X509Certificates_ParseFromString env
                 (pki_data (paymentRequest (self m))))) ->
  (currentDateTime env < effectiveDate env der
   \/ expiryDate env der < currentDateTime env) ->
  let m' := snd (call (getMerchant env store) m) in
  fst (call (getMerchant env store) m) = Some false /\
  merchant m' = EmptyString /\
  forall e, In e (new_events m m') ->
            is_after_loading e = false /\ e <> d2i_X509_ev der.
Proof.
  intros Hin Hout m'. subst m'.
  assert (Hout' : outside_validity env der = true).
  { unfold outside_validity. apply orb_true_iff.
    destruct Hout as [Hl|Hr]; [left|right]; apply Z.ltb_lt; assumption. }
  destruct (X509Certificates_ParseFromString env
              (pki_data (paymentRequest (self m)))) as [ok certChain] eqn:Hp.
  cbn [snd] in Hin.
  pose proof (outside_not_acceptable certChain der Hin Hout') as Hall.
  destruct (call (getMerchant env store) m) as [r m'] eqn:H.
  run_in H; injection H as <- <-; cbn [fst snd merchant];
    simplify_new_events; (split; [reflexivity|]); (split; [reflexivity|]);
    intros e He.
  all: repeat match goal with
         | K : In _ (_ :: _) |- _ => destruct K as [K|K]
         | K : In _ (_ ++ _) |- _ => apply in_app_or in K; destruct K as [K|K]
         | K : In _ [] |- _ => destruct K
         end.
  all: try (subst e; split; [reflexivity|discriminate]).
  all: split; [apply (loading_events_kind certChain e He)|].
  all: intros ->; apply loading_events_d2i in He; unfold acceptable in He;
         rewrite Hout' in He; discriminate He.
Qed.

(** ** The empty chain *)

(** C7. When none of the certificates of the bundle decodes into a native
    handle, getMerchant returns false and nothing that follows the loading
    of the certificates runs, the signature check in particular.  When the
    object is initialized, the scheme recognized, the bundle parsed and each
    certificate passes the per-certificate tests, the last message logged is
    the empty-chain warning. *)
Theorem getMerchant_empty_chain (store : X509_STORE) (m : machine) :
  let bundle := X509Certificates_ParseFromString env
                  (pki_data (paymentRequest (self m))) in
  usable env (snd bundle) = [] ->
  let m' := snd (call (getMerchant env store) m) in
  fst (call (getMerchant env store) m) = Some false /\
  merchant m' = EmptyString /\
  (forall e, In e (new_events m m') ->
             is_after_loading e = false /\ is_signature_check e = false) /\
  (IsInitialized (self m) = true ->
   recognized (pki_type (paymentRequest (self m))) ->
   fst bundle = true ->
   forallb (acceptable env) (snd bundle) = true ->
   new_events m m'
   = X509Certificates_ParseFromString_ev (pki_data (paymentRequest (self m)))
     :: loading_events env (snd bundle)
     ++ [qWarning [q_text "PaymentRequestPlus::getMerchant: Payment request: empty certificate chain"]]).
Proof.
  intros bundle Hnone m'. subst bundle m'.
  destruct (X509Certificates_ParseFromString env
              (pki_data (paymentRequest (self m)))) as [ok certChain] eqn:Hp.
  cbn [fst snd] in *.
  destruct (call (getMerchant env store) m) as [r m'] eqn:H.
  run_in H; injection H as <- <-; cbn [fst snd merchant];
    simplify_new_events; (split; [reflexivity|]); (split; [reflexivity|]).
  all: split;
    [ intros e He;
      repeat match goal with
        | K : In _ (_ :: _) |- _ => destruct K as [K|K]
        | K : In _ (_ ++ _) |- _ => apply in_app_or in K; destruct K as [K|K]
        | K : In _ [] |- _ => destruct K
        end;
      first
        [ subst e; split; reflexivity
        | destruct (loading_events_kind certChain e He) as [Ha _];
          split; [exact Ha|destruct e; try reflexivity; discriminate Ha] ]
    | intros Hinit [E|E] Hok Hall;
      unfold IsInitialized in Hinit;
      try reflexivity; try congruence;
      repeat match goal with
        | K : negb _ = true |- _ => apply negb_true_iff in K
        end;
      try congruence;
      match goal with
      | K : (pki_type _ =? _)%string = false |- _ =>
          rewrite E in K; discriminate K
      end ].
Qed.

(** ** Certificates that do not decode *)

(** C9. A certificate that passes the validity-window and distrust tests
    but that d2i_X509 does not decode is skipped without a warning: the loop
    ends as it does on the bundle without that certificate, with the same
    handles when it completes, the same object and merchant, and the same
    warnings logged. *)
Theorem load_certs_skips_undecodable (pre post : list string) (der : string)
    (certs : list X509) (m : machine) :
  acceptable env der = true ->
  d2i_X509 env der = None ->
  let kept := load_certs env (pre ++ der :: post) certs m in
  let dropped := load_certs env (pre ++ post) certs m in
  fst kept = fst dropped /\
  self (snd kept) = self (snd dropped) /\
  merchant (snd kept) = merchant (snd dropped) /\
  filter is_qWarning (log (snd kept)) = filter is_qWarning (log (snd dropped)) /\
  (forallb (acceptable env) (pre ++ post) = true ->
   fst kept = Normal (certs ++ usable env pre ++ usable env post)).
Proof.
  intros Hacc Hd kept dropped. subst kept dropped.
  rewrite !load_certs_run. cbn [fst snd self merchant log].
  assert (Hres : loading_result env (pre ++ der :: post) certs
                 = loading_result env (pre ++ post) certs).
  { unfold loading_result. rewrite !forallb_app. cbn [forallb]. rewrite Hacc.
    cbn [andb]. rewrite !usable_app. unfold usable at 2. cbn [flat_map].
    rewrite Hd. reflexivity. }
  split; [exact Hres|]. split; [reflexivity|]. split; [reflexivity|]. split.
  - rewrite !loading_events_app, !filter_app. f_equal. f_equal.
    destruct (forallb (acceptable env) pre); [|reflexivity].
    cbn [loading_events]. unfold acceptable in Hacc.
    apply andb_true_iff in Hacc. destruct Hacc as [Ho Hb].
    apply negb_true_iff in Ho. apply negb_true_iff in Hb.
    rewrite Ho, Hb. reflexivity.
  - intros Hall. rewrite Hres. unfold loading_result.
    rewrite Hall, usable_app. reflexivity.
Qed.

(** ** The self-signed carve-out *)


(** * Further properties of the methods *)

(** Tests left by a run, as propositions. *)
Ltac to_props :=
  repeat match goal with
         | K : negb _ = true |- _ => apply negb_true_iff in K
         | K : negb _ = false |- _ => apply negb_false_iff in K
         | K : _ && _ = true |- _ =>
             apply andb_true_iff in K; destruct K
         | K : _ && _ = false |- _ =>
             apply andb_false_iff in K; destruct K
         | K : (_ =? _) = true |- _ => apply Z.eqb_eq in K
         | K : (_ =? _) = false |- _ => apply Z.eqb_neq in K
         | K : (_ <? _) = true |- _ => apply Z.ltb_lt in K
         | K : (_ <? _) = false |- _ => apply Z.ltb_ge in K
         | K : (_ =? _)%string = true |- _ => apply String.eqb_eq in K
         | K : (_ =? _)%string = false |- _ => apply String.eqb_neq in K
         end.

(** ** parse *)

(** X1. parse returns true exactly when the envelope decodes, its
    payment_details_version is at most 1 and the details decode; the object
    then holds the decoded envelope and the decoded details, the merchant is
    untouched, and the two decoders were each called once, in that order,
    without a warning. *)
Theorem parse_true_iff (data : string) (m : machine) :
  let envelope := PaymentRequest_ParseFromArray env data in
  let inner := PaymentDetails_ParseFromString env
                 (serialized_payment_details (snd envelope)) in
  let m' := snd (call (parse env data) m) in
  (fst (call (parse env data) m) = Some true <->
   fst envelope = true /\
   payment_details_version (snd envelope) <= 1 /\
   fst inner = true) /\
  (fst (call (parse env data) m) = Some true ->
   self m' = mkPaymentRequestPlus (snd envelope) (snd inner) /\
   merchant m' = merchant m /\
   new_events m m'
   = [PaymentRequest_ParseFromArray_ev data;
      PaymentDetails_ParseFromString_ev
        (serialized_payment_details (snd envelope))]).
Proof.
  intros envelope inner m'. subst envelope inner m'.
  destruct (call (parse env data) m) as [r m'] eqn:H.
  destruct (PaymentRequest_ParseFromArray env data) as [ok request] eqn:Hp.
  cbn [fst snd].
  destruct (PaymentDetails_ParseFromString env (serialized_payment_details request))
    as [ok' parsed] eqn:Hq.
  cbn [fst snd].
  run_in H; injection H as <- <-; cbn [fst snd self merchant];
    simplify_new_events; to_props.
  all: split; [split|]; try (intros E; discriminate E).
  all: try (intros (A & B & C); first [discriminate A|discriminate C|lia]).
  all: try (intros _; repeat split; first [reflexivity|lia]).
Qed.

(** X2. On the two early failures of parse (the envelope does not decode,
    or its version is above 1) the envelope is not cleared: the object keeps
    whatever the envelope decoder left, so it is initialized whenever that
    message is, and the details member keeps its former value. *)
Theorem parse_early_failure_keeps_envelope (data : string) (m : machine) :
  let envelope := PaymentRequest_ParseFromArray env data in
  let m' := snd (call (parse env data) m) in
  fst envelope = false \/ 1 < payment_details_version (snd envelope) ->
  fst (call (parse env data) m) = Some false /\
  paymentRequest (self m') = snd envelope /\
  details (self m') = details (self m) /\
  IsInitialized (self m') = PaymentRequest_IsInitialized (snd envelope).
Proof.
  intros envelope m'. subst envelope m'.
  destruct (call (parse env data) m) as [r m'] eqn:H.
  destruct (PaymentRequest_ParseFromArray env data) as [ok request] eqn:Hp.
  cbn [fst snd]. intros Hearly.
  run_in H; injection H as <- <-; cbn [fst snd self paymentRequest details];
    to_props; try (repeat split; reflexivity).
  all: exfalso; destruct Hearly as [E|E]; [discriminate E|lia].
Qed.

(** X3. parse is idempotent on the object: parsing the same bytes a second
    time returns the same value and leaves the same envelope and details as
    the first parse did, whether it succeeded or failed. *)
Theorem parse_idempotent (data : string) (m : machine) :
  let once := call (parse env data) m in
  let twice := call (parse env data) (snd once) in
  fst twice = fst once /\ self (snd twice) = self (snd once).
Proof.
  intros once twice. subst once twice.
  destruct (call (parse env data) m) as [r1 m1] eqn:H1. cbn [fst snd].
  destruct (call (parse env data) m1) as [r2 m2] eqn:H2. cbn [fst snd].
  destruct (PaymentRequest_ParseFromArray env data) as [ok request] eqn:Hp.
  run_in H1; injection H1 as <- <-; run_in H2; injection H2 as <- <-;
    split; reflexivity.
Qed.

(** ** getPayTo *)

Lemma to_CAmount_range (a : Z) :
  - 2 ^ 63 <= to_CAmount a < 2 ^ 63 /\
  (to_CAmount a - a) mod 2 ^ 64 = 0 /\
  (0 <= a < 2 ^ 63 -> to_CAmount a = a) /\
  (2 ^ 63 <= a < 2 ^ 64 -> to_CAmount a = a - 2 ^ 64).
Proof.
  unfold to_CAmount.
  change (2 ^ 63) with 9223372036854775808.
  change (2 ^ 64) with 18446744073709551616.
  pose proof (Z.mod_pos_bound a 18446744073709551616 eq_refl) as Hw.
  assert (Hmod : (a mod 18446744073709551616 - a) mod 18446744073709551616 = 0).
  { rewrite Zminus_mod, Zmod_mod, Z.sub_diag. reflexivity. }
  cbv zeta.
  destruct (a mod 18446744073709551616 <? 9223372036854775808) eqn:Hlt;
    [apply Z.ltb_lt in Hlt|apply Z.ltb_ge in Hlt].
  - split; [lia|]. split; [exact Hmod|]. split; intros Ha.
    + apply Z.mod_small. lia.
    + rewrite Z.mod_small in Hlt by lia. lia.
  - split; [lia|]. split.
    + replace (a mod 18446744073709551616 - 18446744073709551616 - a)
        with ((a mod 18446744073709551616 - a) + (-1) * 18446744073709551616)
        by ring.
      rewrite Z_mod_plus_full. exact Hmod.
    + split; intros Ha.
      * rewrite Z.mod_small in Hlt by lia. lia.
      * rewrite Z.mod_small by lia. reflexivity.
Qed.

(** X4. getPayTo returns one pair per output of the details, in their
    order, with the script bytes unchanged; the amount is the 64-bit value
    read as a signed integer: it lies in the int64 range, agrees with the
    stored amount modulo 2^64, equals it below 2^63 and is negative (the
    amount minus 2^64) from 2^63 on. *)
Theorem getPayTo_amounts (this : PaymentRequestPlus) :
  Forall2
    (fun (o : Output) (p : string * Z) =>
       fst p = script o /\
       - 2 ^ 63 <= snd p < 2 ^ 63 /\
       (snd p - amount o) mod 2 ^ 64 = 0 /\
       (0 <= amount o < 2 ^ 63 -> snd p = amount o) /\
       (2 ^ 63 <= amount o < 2 ^ 64 -> snd p = amount o - 2 ^ 64))
    (outputs (details this)) (getPayTo this).
Proof.
  unfold getPayTo.
  induction (outputs (details this)) as [|o rest IH]; cbn [map]; constructor.
  - cbn [fst snd]. split; [reflexivity|]. apply to_CAmount_range.
  - exact IH.
Qed.

(** ** getMerchant *)

(** What the goals of a run say about the oracles, in the terms of the
    statements. *)
Ltac use_oracles :=
  repeat match goal with
         | K : _ = (_, _) |- _ => rewrite K in *; clear K
         end;
  cbn [fst snd] in *.

(** X5. getMerchant returns true exactly when the object is initialized,
    the scheme is recognized, the bundle parses, every certificate passes
    the validity-window and distrust tests, at least one certificate decodes,
    the context is created and initialized on the first decoded certificate
    with the others in reverse order, path validation returns 1 or fails with
    the tolerated self-signed error while the flag is set, none of the three
    EVP_Verify calls on the canonical bytes and the stored signature returns
    0, and the leaf's common name has a positive length that the second read
    confirms.  The merchant is then what Qt decodes from the bytes of that
    second read up to their first NUL. *)
Theorem getMerchant_true_iff (store : X509_STORE) (m : machine) :
  let request := paymentRequest (self m) in
  let bundle := X509Certificates_ParseFromString env (pki_data request) in
  let md := if (pki_type request =? "x509+sha256")%string
            then EVP_sha256 else EVP_sha1 in
  let m' := snd (call (getMerchant env store) m) in
  (fst (call (getMerchant env store) m) = Some true <->
   IsInitialized (self m) = true /\
   recognized (pki_type request) /\
   fst bundle = true /\
   forallb (acceptable env) (snd bundle) = true /\
   exists (leaf : X509) (others : list X509),
     usable env (snd bundle) = leaf :: others /\
     X509_STORE_CTX_new env = true /\
     fst (X509_STORE_CTX_init env store leaf (rev others)) <> 0 /\
     (fst (X509_verify_cert env store leaf (rev others)) = 1 \/
      snd (X509_verify_cert env store leaf (rev others))
      = X509_V_ERR_DEPTH_ZERO_SELF_SIGNED_CERT /\
      allow_self_signed_root env = true) /\
     EVP_MD_CTX_create env = true /\
     EVP_VerifyInit_ex env md <> 0 /\
     EVP_VerifyUpdate env md (canonical_bytes env request) <> 0 /\
     EVP_VerifyFinal env md (canonical_bytes env request) (signature request)
       (X509_get_pubkey env leaf) <> 0 /\
     0 < X509_NAME_get_text_by_NID_len env leaf /\
     fst (X509_NAME_get_text_by_NID env leaf
            (X509_NAME_get_text_by_NID_len env leaf + 1))
     = X509_NAME_get_text_by_NID_len env leaf) /\
  (fst (call (getMerchant env store) m) = Some true ->
   forall (leaf : X509) (others : list X509),
     usable env (snd bundle) = leaf :: others ->
     merchant m'
     = QString_from_chars env
         (c_str (snd (X509_NAME_get_text_by_NID env leaf
                        (X509_NAME_get_text_by_NID_len env leaf + 1))))).
Proof.
  intros request bundle md m'. subst request bundle md m'.
  unfold allow_self_signed_root, canonical_bytes, IsInitialized.
  destruct (call (getMerchant env store) m) as [r m'] eqn:H.
  destruct (X509Certificates_ParseFromString env
              (pki_data (paymentRequest (self m)))) as [ok certChain] eqn:Hp.
  cbn [fst snd].
  run_in H; injection H as <- <-; cbn [fst snd merchant].
  all: split; [split|]; try (intros E; discriminate E).
  (* the conditions hold on the runs that succeed *)
  all: try (intros _; to_props; use_oracles;
            repeat (split; [first [reflexivity|left; assumption
                                  |right; assumption]|]);
            eexists _, _; split; [reflexivity|];
            use_oracles; repeat split; auto; fail).
  (* the merchant of those runs *)
  all: try (intros _ leaf others E; injection E as <- <-;
            use_oracles; reflexivity).
  all: try (intros _; reflexivity).
  (* a run that fails breaks one of the conditions *)
  all: intros (A & B & C & D & leaf & others & E & F & G & Hv & I & J & K & L
               & Mn & N); exfalso.
  all: try discriminate.
  all: try (injection E as <- <-).
  all: to_props; use_oracles.
  all: try congruence.
  all: try lia.
  all: try (destruct B; congruence).
  all: destruct Hv as [Hv|[Hv Hg]]; congruence.
Qed.

Lemma distrusted_not_acceptable (certChain : list string) (der : string) :
  In der certChain -> distrusted env der = true ->
  forallb (acceptable env) certChain = false.
Proof.
  intros Hin Hdis.
  destruct (forallb (acceptable env) certChain) eqn:Hall; [|reflexivity].
  rewrite forallb_forall in Hall. specialize (Hall der Hin).
  unfold acceptable in Hall. rewrite Hdis, andb_false_r in Hall.
  discriminate Hall.
Qed.

(** X6. With Qt 5 or later, if any certificate of the decoded bundle, at
    any position, is blacklisted, getMerchant returns false with an empty
    merchant; that certificate is never decoded into a native handle and
    nothing that follows the loading of the certificates runs. *)
Theorem getMerchant_distrusted_certificate (store : X509_STORE) (m : machine)
    (der : string) :
  In der (snd (X509Certificates_ParseFromString env
                 (pki_data (paymentRequest (self m))))) ->
  0x050000 <= QT_VERSION env ->
  isBlacklisted env der = true ->
  let m' := snd (call (getMerchant env store) m) in
  fst (call (getMerchant env store) m) = Some false /\
  merchant m' = EmptyString /\
  forall e, In e (new_events m m') ->
            is_after_loading e = false /\ e <> d2i_X509_ev der.
Proof.
  intros Hin Hqt Hbl m'. subst m'.
  assert (Hdis : distrusted env der = true).
  { unfold distrusted. rewrite Hbl, andb_true_r. apply Z.leb_le. exact Hqt. }
  destruct (X509Certificates_ParseFromString env
              (pki_data (paymentRequest (self m)))) as [ok certChain] eqn:Hp.
  cbn [snd] in Hin.
  pose proof (distrusted_not_acceptable certChain der Hin Hdis) as Hall.
  destruct (call (getMerchant env store) m) as [r m'] eqn:H.
  run_in H; injection H as <- <-; cbn [fst snd merchant];
    simplify_new_events; (split; [reflexivity|]); (split; [reflexivity|]);
    intros e He.
  all: repeat match goal with
         | K : In _ (_ :: _) |- _ => destruct K as [K|K]
         | K : In _ (_ ++ _) |- _ => apply in_app_or in K; destruct K as [K|K]
         | K : In _ [] |- _ => destruct K
         end.
  all: try (subst e; split; [reflexivity|discriminate]).
  all: split; [apply (loading_events_kind certChain e He)|].
  all: intros ->; apply loading_events_d2i in He; unfold acceptable in He;
         rewrite Hdis, andb_false_r in He; discriminate He.
Qed.

(** X7. No stage of getMerchant runs unless the stages before it passed.
    A certificate is parsed or decoded only on an initialized object with a
    recognized scheme; anything after the loading of the certificates
    happens only if, in addition, the bundle parsed, every certificate
    passed the per-certificate tests and at least one decoded; and the
    signature is checked only if, further, the context was created and
    initialized, path validation returned 1 or failed with the tolerated
    error while the flag is set, and the digest context was created. *)
Theorem getMerchant_stage_gates (store : X509_STORE) (m : machine) (e : event) :
  let request := paymentRequest (self m) in
  let bundle := X509Certificates_ParseFromString env (pki_data request) in
  let m' := snd (call (getMerchant env store) m) in
  In e (new_events m m') ->
  (is_certificate_decoding e = true ->
   IsInitialized (self m) = true /\ recognized (pki_type request)) /\
  (is_after_loading e = true ->
   IsInitialized (self m) = true /\ recognized (pki_type request) /\
   fst bundle = true /\
   forallb (acceptable env) (snd bundle) = true /\
   usable env (snd bundle) <> []) /\
  (is_signature_check e = true ->
   exists (leaf : X509) (others : list X509),
     usable env (snd bundle) = leaf :: others /\
     X509_STORE_CTX_new env = true /\
     fst (X509_STORE_CTX_init env store leaf (rev others)) <> 0 /\
     (fst (X509_verify_cert env store leaf (rev others)) = 1 \/
      snd (X509_verify_cert env store leaf (rev others))
      = X509_V_ERR_DEPTH_ZERO_SELF_SIGNED_CERT /\
      allow_self_signed_root env = true) /\
     EVP_MD_CTX_create env = true).
Proof.
  intros request bundle m'. subst request bundle m'.
  unfold allow_self_signed_root, IsInitialized.
  destruct (call (getMerchant env store) m) as [r m'] eqn:H.
  destruct (X509Certificates_ParseFromString env
              (pki_data (paymentRequest (self m)))) as [ok certChain] eqn:Hp.
  cbn [fst snd].
  run_in H; injection H as <- <-; cbn [fst snd];
    simplify_new_events; intros He.
  all: repeat match goal with
         | K : In _ (_ :: _) |- _ => destruct K as [K|K]
         | K : In _ (_ ++ _) |- _ => apply in_app_or in K; destruct K as [K|K]
         | K : In _ [] |- _ => destruct K
         end.
  all: to_props.
  (* an event of the loop *)
  all: try (destruct (loading_events_kind certChain e He) as [Ha _];
            split; [intros _; split;
                      [reflexivity|first [left; assumption|right; assumption]]|];
            split; [intros T; congruence|];
            destruct e; cbn; intros T; discriminate).
  (* a single event *)
  all: subst e; cbn [is_certificate_decoding is_after_loading is_signature_check].
  all: split; [|split]; intros T; try discriminate T.
  all: try (eexists _, _; split; [reflexivity|]; use_oracles).
  all: repeat split;
         first [ reflexivity | assumption | discriminate
               | left; assumption | right; assumption
               | right; split; assumption ].
Qed.

(** X8. On a run that reaches the signature check, if EVP_VerifyInit_ex,
    EVP_VerifyUpdate on the canonical bytes or EVP_VerifyFinal on the stored
    signature and the leaf's public key returns 0, getMerchant returns false
    with an empty merchant, the last thing it does is to log the bad
    signature warning, and the common name is never read. *)
Theorem getMerchant_bad_signature (store : X509_STORE) (m : machine)
    (leaf : X509) (others : list X509) :
  let request := paymentRequest (self m) in
  let bundle := X509Certificates_ParseFromString env (pki_data request) in
  let md := if (pki_type request =? "x509+sha256")%string
            then EVP_sha256 else EVP_sha1 in
  let m' := snd (call (getMerchant env store) m) in
  usable env (snd bundle) = leaf :: others ->
  In (EVP_VerifyInit_ex_ev md) (new_events m m') ->
  EVP_VerifyInit_ex env md = 0
  \/ EVP_VerifyUpdate env md (canonical_bytes env request) = 0
  \/ EVP_VerifyFinal env md (canonical_bytes env request) (signature request)
       (X509_get_pubkey env leaf) = 0 ->
  fst (call (getMerchant env store) m) = Some false /\
  merchant m' = EmptyString /\
  (exists l : list event,
     new_events m m'
     = l ++ [qWarning [q_text "PaymentRequestPlus::getMerchant: SSL error: ";
                       q_text "Bad signature, invalid payment request."]]) /\
  ~ In X509_NAME_get_text_by_NID_ev (new_events m m').
Proof.
  intros request bundle md m'. subst request bundle md m'.
  unfold canonical_bytes.
  destruct (call (getMerchant env store) m) as [r m'] eqn:H.
  destruct (X509Certificates_ParseFromString env
              (pki_data (paymentRequest (self m)))) as [ok certChain] eqn:Hp.
  cbn [fst snd]. intros Hus.
  run_in H; injection H as <- <-; cbn [fst snd merchant];
    simplify_new_events; intros He Hzero.
  all: try (log_member; fail).
  all: to_props.
  all: try (exfalso; destruct Hzero as [Z0|[Z0|Z0]]; congruence).
  all: split; [reflexivity|]; split; [reflexivity|]; split;
         [rewrite !app_assoc; eexists; reflexivity
         |intros Hn; clear He; log_member].
Qed.

(** X9. On a run that reaches the reading of the common name (the
    signature has been accepted), if the leaf's common name has no positive
    length or the second read returns another length, getMerchant returns
    false with an empty merchant and the last thing it does is to log the
    missing common name warning. *)
Theorem getMerchant_missing_common_name (store : X509_STORE) (m : machine)
    (leaf : X509) (others : list X509) :
  let request := paymentRequest (self m) in
  let bundle := X509Certificates_ParseFromString env (pki_data request) in
  let textlen := X509_NAME_get_text_by_NID_len env leaf in
  let m' := snd (call (getMerchant env store) m) in
  usable env (snd bundle) = leaf :: others ->
  In X509_NAME_get_text_by_NID_ev (new_events m m') ->
  textlen <= 0
  \/ fst (X509_NAME_get_text_by_NID env leaf (textlen + 1)) <> textlen ->
  fst (call (getMerchant env store) m) = Some false /\
  merchant m' = EmptyString /\
  exists l : list event,
    new_events m m'
    = l ++ [qWarning [q_text "PaymentRequestPlus::getMerchant: SSL error: ";
                      q_text "Bad certificate, missing common name."]].
Proof.
  intros request bundle textlen m'. subst request bundle textlen m'.
  destruct (call (getMerchant env store) m) as [r m'] eqn:H.
  destruct (X509Certificates_ParseFromString env
              (pki_data (paymentRequest (self m)))) as [ok certChain] eqn:Hp.
  cbn [fst snd]. intros Hus.
  run_in H; injection H as <- <-; cbn [fst snd merchant];
    simplify_new_events; intros He Hname.
  all: try (log_member; fail).
  all: to_props; use_oracles.
  all: try (exfalso; destruct Hname as [N0|N0]; [lia|congruence]).
  all: split; [reflexivity|]; split; [reflexivity|];
         rewrite !app_assoc; eexists; reflexivity.
Qed.

(** X10. The verdict of getMerchant depends on the stored envelope only:
    two objects that hold the same envelope get the same return value, the
    same merchant and the same sequence of library calls and messages,
    whatever their details member, the merchant passed in and the earlier
    log are. *)
Theorem getMerchant_reads_envelope_only (store : X509_STORE) (m1 m2 : machine) :
  paymentRequest (self m1) = paymentRequest (self m2) ->
  let r1 := call (getMerchant env store) m1 in
  let r2 := call (getMerchant env store) m2 in
  fst r1 = fst r2 /\
  merchant (snd r1) = merchant (snd r2) /\
  new_events m1 (snd r1) = new_events m2 (snd r2).
Proof.
  intros Hsame r1 r2. subst r1 r2.
  destruct (call (getMerchant env store) m1) as [b1 m1'] eqn:H1.
  destruct (call (getMerchant env store) m2) as [b2 m2'] eqn:H2.
  cbn [fst snd].
  unfold_methods_in H1. rewrite Hsame in H1. unfold_methods_in H2.
  repeat step_in H1.
  all: injection H1 as <- <-.
  all: cbn [self merchant log paymentRequest details fst snd negb app] in H2;
         repeat step_in H2; injection H2 as <- <-.
  all: cbn [merchant]; do 2 simplify_new_events; repeat split; reflexivity.
Qed.

End Properties.

(** * The theorems on concrete runs *)

Example parse_accepts :
  fst (call (parse (demo_env None) "1|none||coffee;tea|") (demo_machine fresh))
  = Some true.
Proof. vm_compute. reflexivity. Qed.

(** A parse that rejects an up-version envelope leaves it stored. *)
Example parse_up_version_keeps_envelope :
  IsInitialized
    (self (snd (call (parse (demo_env None) "2|none||coffee;tea|")
                  (demo_machine fresh))))
  = true.
Proof. vm_compute. reflexivity. Qed.

Example getMerchant_accepts :
  call (getMerchant (demo_env None) demo_store) demo_signed
  = (Some true,
     mkMachine (self demo_signed) "shop.example"
       [X509Certificates_ParseFromString_ev "cert:shop.example;junk;cert:ca";
        QSslCertificate_ev "cert:shop.example"; d2i_X509_ev "cert:shop.example";
        QSslCertificate_ev "junk"; d2i_X509_ev "junk";
        QSslCertificate_ev "cert:ca"; d2i_X509_ev "cert:ca";
        X509_STORE_CTX_new_ev; X509_STORE_CTX_init_ev; X509_verify_cert_ev;
        SerializeToString_ev
          (set_signature (paymentRequest (self demo_signed)) EmptyString);
        EVP_MD_CTX_create_ev; EVP_VerifyInit_ex_ev EVP_sha256;
        EVP_VerifyUpdate_ev "x509+sha256|cert:shop.example;junk;cert:ca|coffee|";
        EVP_VerifyFinal_ev (signature (paymentRequest (self demo_signed)));
        X509_NAME_get_text_by_NID_ev; X509_NAME_get_text_by_NID_ev]).
Proof. vm_compute. reflexivity. Qed.

Example getMerchant_self_signed_default :
  fst (call (getMerchant (demo_env None) demo_store) demo_selfsigned)
  = Some false.
Proof. vm_compute. reflexivity. Qed.

Example getMerchant_self_signed_allowed :
  fst (call (getMerchant (demo_env (Some true)) demo_store) demo_selfsigned)
  = Some true.
Proof. vm_compute. reflexivity. Qed.

Example getPayTo_wraps :
  getPayTo (mkPaymentRequestPlus Clear
              (mkPaymentDetails [mkOutput "a" (2 ^ 64 - 1)]))
  = [("a", -1)].
Proof. vm_compute. reflexivity. Qed.

Lemma getMerchant_uninitialized_witness :
  IsInitialized fresh = false /\
  call (getMerchant (demo_env None) demo_store) (demo_machine fresh)
  = (Some false,
     mkMachine (self (demo_machine fresh)) EmptyString (log (demo_machine fresh))).
Proof.
  assert (H : IsInitialized (self (demo_machine fresh)) = false) by reflexivity.
  split; [exact H|].
  exact (getMerchant_uninitialized (demo_env None) demo_store (demo_machine fresh) H).
Defined.

Lemma getMerchant_failure_clears_merchant_witness :
  fst (call (getMerchant (demo_env None) demo_store) demo_parsed) = Some false /\
  merchant (snd (call (getMerchant (demo_env None) demo_store) demo_parsed))
  = EmptyString.
Proof.
  assert (H : fst (call (getMerchant (demo_env None) demo_store) demo_parsed)
              = Some false) by (vm_compute; reflexivity).
  split; [exact H|].
  exact (proj1 (getMerchant_failure_clears_merchant (demo_env None) demo_store
                  demo_parsed H)).
Defined.

(** C1 as stated fails: on the object [parse] accepted, getMerchant returns
    false (the request is unsigned) and getPayTo returns both outputs all
    the same. *)
Lemma getMerchant_failure_exposes_outputs :
  fst (call (getMerchant (demo_env None) demo_store) demo_parsed) = Some false /\
  getPayTo (self (snd (call (getMerchant (demo_env None) demo_store) demo_parsed)))
  = [("coffee", 6); ("tea", 3)] /\
  ~ failure_exposes_nothing (demo_env None) demo_store demo_parsed.
Proof.
  assert (Hf : fst (call (getMerchant (demo_env None) demo_store) demo_parsed)
               = Some false) by (vm_compute; reflexivity).
  assert (Hp : getPayTo (self (snd (call (getMerchant (demo_env None) demo_store)
                                      demo_parsed)))
               = [("coffee", 6); ("tea", 3)]) by (vm_compute; reflexivity).
  split; [exact Hf|]. split; [exact Hp|].
  intros Hclaim. destruct (Hclaim Hf) as [_ Hnone].
  rewrite Hp in Hnone. discriminate Hnone.
Qed.


Lemma getMerchant_unrecognized_pki_type_witness :
  ~ recognized (pki_type (paymentRequest (self demo_parsed))) /\
  fst (call (getMerchant (demo_env None) demo_store) demo_parsed) = Some false.
Proof.
  assert (H : ~ recognized (pki_type (paymentRequest (self demo_parsed)))).
  { intros [E|E]; vm_compute in E; discriminate E. }
  split; [exact H|].
  exact (proj1 (getMerchant_unrecognized_pki_type (demo_env None) demo_store
                  demo_parsed H)).
Defined.

Lemma parse_up_version_witness :
  1 < payment_details_version
        (snd (PaymentRequest_ParseFromArray (demo_env None) "2|none||coffee;tea|")) /\
  fst (call (parse (demo_env None) "2|none||coffee;tea|") (demo_machine fresh))
  = Some false.
Proof.
  assert (H : 1 < payment_details_version
                    (snd (PaymentRequest_ParseFromArray (demo_env None)
                            "2|none||coffee;tea|")))
    by (vm_compute; reflexivity).
  split; [exact H|].
  exact (proj1 (parse_up_version (demo_env None) "2|none||coffee;tea|"
                  (demo_machine fresh) H)).
Defined.

Lemma parse_malformed_details_witness :
  PaymentRequest_ParseFromArray (demo_env None) "1|none||coffee;?;tea|"
  = (true, mkPaymentRequest (Some 1) (Some "none") (Some EmptyString)
             (Some "coffee;?;tea") (Some EmptyString)) /\
  paymentRequest
    (self (snd (call (parse (demo_env None) "1|none||coffee;?;tea|")
                  (demo_machine fresh))))
  = Clear.
Proof.
  assert (H : PaymentRequest_ParseFromArray (demo_env None) "1|none||coffee;?;tea|"
              = (true, mkPaymentRequest (Some 1) (Some "none") (Some EmptyString)
                         (Some "coffee;?;tea") (Some EmptyString)))
    by (vm_compute; reflexivity).
  split; [exact H|].
  refine (proj1 (proj2 (proj2 (parse_malformed_details (demo_env None)
                          "1|none||coffee;?;tea|" (demo_machine fresh) _ H _ _)))).
  - vm_compute. discriminate.
  - vm_compute. reflexivity.
Defined.

Lemma getMerchant_certificate_outside_validity_witness :
  expiryDate (demo_env None) "cert:expired" < currentDateTime (demo_env None) /\
  fst (call (getMerchant (demo_env None) demo_store) demo_expired) = Some false.
Proof.
  assert (H : expiryDate (demo_env None) "cert:expired"
              < currentDateTime (demo_env None)) by (vm_compute; reflexivity).
  split; [exact H|].
  refine (proj1 (getMerchant_certificate_outside_validity (demo_env None)
                   demo_store demo_expired "cert:expired" _ (or_intror H))).
  vm_compute. right. left. reflexivity.
Defined.

Lemma getMerchant_empty_chain_witness :
  usable (demo_env None)
    (snd (X509Certificates_ParseFromString (demo_env None)
            (pki_data (paymentRequest (self demo_junk))))) = [] /\
  fst (call (getMerchant (demo_env None) demo_store) demo_junk) = Some false.
Proof.
  assert (H : usable (demo_env None)
                (snd (X509Certificates_ParseFromString (demo_env None)
                        (pki_data (paymentRequest (self demo_junk))))) = [])
    by (vm_compute; reflexivity).
  split; [exact H|].
  exact (proj1 (getMerchant_empty_chain (demo_env None) demo_store demo_junk H)).
Defined.

Lemma load_certs_skips_undecodable_witness :
  acceptable (demo_env None) "junk" = true /\
  d2i_X509 (demo_env None) "junk" = None /\
  fst (load_certs (demo_env None) (["cert:shop.example"] ++ "junk" :: ["cert:ca"])
         [] (demo_machine fresh))
  = fst (load_certs (demo_env None) (["cert:shop.example"] ++ ["cert:ca"])
           [] (demo_machine fresh)).
Proof.
  assert (Ha : acceptable (demo_env None) "junk" = true) by (vm_compute; reflexivity).
  assert (Hd : d2i_X509 (demo_env None) "junk" = None) by (vm_compute; reflexivity).
  split; [exact Ha|]. split; [exact Hd|].
  exact (proj1 (load_certs_skips_undecodable (demo_env None) ["cert:shop.example"]
                  ["cert:ca"] "junk" [] (demo_machine fresh) Ha Hd)).
Defined.


(** * The further properties on concrete runs *)

Ltac pick_member := repeat first [left; reflexivity | right].

Lemma parse_early_failure_keeps_envelope_witness :
  1 < payment_details_version
        (snd (PaymentRequest_ParseFromArray (demo_env None) "2|none||coffee;tea|")) /\
  IsInitialized
    (self (snd (call (parse (demo_env None) "2|none||coffee;tea|")
                  (demo_machine fresh))))
  = PaymentRequest_IsInitialized
      (snd (PaymentRequest_ParseFromArray (demo_env None) "2|none||coffee;tea|")).
Proof.
  assert (H : 1 < payment_details_version
                    (snd (PaymentRequest_ParseFromArray (demo_env None)
                            "2|none||coffee;tea|")))
    by (vm_compute; reflexivity).
  split; [exact H|].
  exact (proj2 (proj2 (proj2 (parse_early_failure_keeps_envelope (demo_env None)
                                "2|none||coffee;tea|" (demo_machine fresh)
                                (or_intror H))))).
Defined.

Lemma getMerchant_distrusted_certificate_witness :
  isBlacklisted (demo_env None) "cert:revoked" = true /\
  fst (call (getMerchant (demo_env None) demo_store) demo_revoked) = Some false.
Proof.
  assert (H : isBlacklisted (demo_env None) "cert:revoked" = true)
    by (vm_compute; reflexivity).
  split; [exact H|].
  refine (proj1 (getMerchant_distrusted_certificate (demo_env None) demo_store
                   demo_revoked "cert:revoked" _ _ H)).
  - vm_compute. pick_member.
  - vm_compute. discriminate.
Defined.

Lemma getMerchant_stage_gates_witness :
  In (EVP_VerifyFinal_ev (signature (paymentRequest (self demo_signed))))
     (new_events demo_signed
        (snd (call (getMerchant (demo_env None) demo_store) demo_signed))) /\
  exists (leaf : string) (others : list string),
    usable (demo_env None)
      (snd (X509Certificates_ParseFromString (demo_env None)
              (pki_data (paymentRequest (self demo_signed)))))
    = leaf :: others /\
    X509_STORE_CTX_new (demo_env None) = true /\
    fst (X509_STORE_CTX_init (demo_env None) demo_store leaf (rev others)) <> 0 /\
    (fst (X509_verify_cert (demo_env None) demo_store leaf (rev others)) = 1 \/
     snd (X509_verify_cert (demo_env None) demo_store leaf (rev others))
     = X509_V_ERR_DEPTH_ZERO_SELF_SIGNED_CERT /\
     allow_self_signed_root (demo_env None) = true) /\
    EVP_MD_CTX_create (demo_env None) = true.
Proof.
  assert (H : In (EVP_VerifyFinal_ev (signature (paymentRequest (self demo_signed))))
                (new_events demo_signed
                   (snd (call (getMerchant (demo_env None) demo_store) demo_signed))))
    by (vm_compute; pick_member).
  split; [exact H|].
  exact (proj2 (proj2 (getMerchant_stage_gates (demo_env None) demo_store
                         demo_signed _ H)) eq_refl).
Defined.

Lemma getMerchant_bad_signature_witness :
  EVP_VerifyFinal (demo_env None) EVP_sha256
    (canonical_bytes (demo_env None) (paymentRequest (self demo_forged)))
    (signature (paymentRequest (self demo_forged)))
    (X509_get_pubkey (demo_env None) "cert:shop.example") = 0 /\
  fst (call (getMerchant (demo_env None) demo_store) demo_forged) = Some false.
Proof.
  assert (H : EVP_VerifyFinal (demo_env None) EVP_sha256
                (canonical_bytes (demo_env None) (paymentRequest (self demo_forged)))
                (signature (paymentRequest (self demo_forged)))
                (X509_get_pubkey (demo_env None) "cert:shop.example") = 0)
    by (vm_compute; reflexivity).
  split; [exact H|].
  refine (proj1 (getMerchant_bad_signature (demo_env None) demo_store demo_forged
                   "cert:shop.example" [] _ _ (or_intror (or_intror H)))).
  - vm_compute. reflexivity.
  - vm_compute. pick_member.
Defined.

Lemma getMerchant_missing_common_name_witness :
  X509_NAME_get_text_by_NID_len (demo_env None) "cert:" <= 0 /\
  fst (call (getMerchant (demo_env None) demo_store_nameless) demo_nameless)
  = Some false.
Proof.
  assert (H : X509_NAME_get_text_by_NID_len (demo_env None) "cert:" <= 0)
    by (vm_compute; discriminate).
  split; [exact H|].
  refine (proj1 (getMerchant_missing_common_name (demo_env None)
                   demo_store_nameless demo_nameless "cert:" [] _ _ (or_introl H))).
  - vm_compute. reflexivity.
  - vm_compute. pick_member.
Defined.

Lemma getMerchant_reads_envelope_only_witness :
  paymentRequest (self demo_signed) = paymentRequest (self demo_signed_elsewhere) /\
  merchant (snd (call (getMerchant (demo_env None) demo_store) demo_signed))
  = merchant (snd (call (getMerchant (demo_env None) demo_store)
                     demo_signed_elsewhere)).
Proof.
  assert (H : paymentRequest (self demo_signed)
              = paymentRequest (self demo_signed_elsewhere)) by reflexivity.
  split; [exact H|].
  exact (proj1 (proj2 (getMerchant_reads_envelope_only (demo_env None) demo_store
                         demo_signed demo_signed_elsewhere H))).
Defined.

(** The merchant is the common name up to its first NUL. *)
Example getMerchant_common_name_stops_at_NUL :
  X509_NAME_get_text_by_NID_len (demo_env None) demo_cert_nul = 25 /\
  fst (call (getMerchant (demo_env None) demo_store_nul) demo_nul) = Some true /\
  merchant (snd (call (getMerchant (demo_env None) demo_store_nul) demo_nul))
  = "shop.example".
Proof. repeat split; vm_compute; reflexivity. Qed.

(** C8 as stated fails: parse returns false on details whose second output
    is malformed and clears the envelope, yet getPayTo returns the output
    decoded before the failure; after an earlier good parse it returns the
    output of the rejected request. *)
Lemma parse_malformed_details_exposes_outputs :
  fst (call (parse (demo_env None) "1|none||coffee;?;tea|") (demo_machine fresh))
  = Some false /\
  getPayTo (self (snd (call (parse (demo_env None) "1|none||coffee;?;tea|")
                         (demo_machine fresh))))
  = [("coffee", 6)] /\
  ~ details_failure_exposes_nothing (demo_env None) "1|none||coffee;?;tea|"
      (demo_machine fresh) /\
  IsInitialized (self demo_reparsed) = false /\
  getPayTo (self demo_reparsed) = [("evil", 4)].
Proof.
  assert (Hp : getPayTo (self (snd (call (parse (demo_env None)
                                            "1|none||coffee;?;tea|")
                                      (demo_machine fresh))))
               = [("coffee", 6)]) by (vm_compute; reflexivity).
  split; [vm_compute; reflexivity|]. split; [exact Hp|].
  split; [|split; vm_compute; reflexivity].
  intros Hclaim. unfold details_failure_exposes_nothing in Hclaim.
  destruct Hclaim as (_ & _ & Hnone).
  - vm_compute. reflexivity.
  - vm_compute. discriminate.
  - vm_compute. reflexivity.
  - rewrite Hp in Hnone. discriminate Hnone.
Qed.
